(** * TimerGifCreator: countdown-timer GIF generator

    A shallow embedding of [TimerGifCreator/TimerGifCreator.py] and the
    verification of its label arithmetic, its file naming and the order
    of its effects.

    Python integers are unbounded, so they are [Z]; [divmod] on a positive
    divisor is floor division, which is [Z.div] / [Z.modulo].  Strings are
    [string].  The file system the script writes to is a [gmap] from paths
    to saved animations. *)

From Stdlib Require Import ZArith List Ascii String Lia.
From Stdlib Require Import Decimal DecimalString DecimalPos DecimalN DecimalZ.
From stdpp Require Import base gmap strings list.

Local Open Scope string_scope.
Local Open Scope Z_scope.

(** ** Python built-ins used by the script *)

Module Py.

(** [str(n)] for [n >= 0]: the decimal digits, no sign. *)
Definition digits (n : Z) : string :=
  NilZero.string_of_uint (N.to_uint (Z.abs_N n)).

Fixpoint zeros (k : nat) : string :=
  match k with
  | O => EmptyString
  | S k' => String "0" (zeros k')
  end.

(** Left-pad [s] with ['0'] up to [width] characters. *)
Definition zfill (width : nat) (s : string) : string :=
  zeros (width - String.length s) +:+ s.

(** The format spec [0<width>d] on an integer: sign-aware zero padding,
    the sign (only ['-'] is ever printed) counts towards the width. *)
Definition format_0d (width : nat) (n : Z) : string :=
  if n <? 0 then String "-" (zfill (width - 1) (digits n))
  else zfill width (digits n).

(** [{:02d}] *)
Definition format_02d (n : Z) : string := format_0d 2 n.

(** [int(s)] on a decimal literal with an optional leading ['-'];
    [None] where Python raises [ValueError]. *)
Definition int (s : string) : option Z :=
  option_map Z.of_int (NilZero.int_of_string s).

(** [len(range(start, stop, step))] as CPython computes it. *)
Definition range_len (start stop step : Z) : Z :=
  if 0 <? step then
    if start <? stop then (stop - start - 1) / step + 1 else 0
  else if step <? 0 then
    if stop <? start then (start - stop - 1) / (- step) + 1 else 0
  else 0.

(** [list(range(start, stop, step))].  Python raises [ValueError] for
    [step = 0]; the script only ever passes the literal [-1]. *)
Definition range (start stop step : Z) : list Z :=
  map (fun i => start + Z.of_nat i * step)
      (seq 0 (Z.to_nat (range_len start stop step))).

Definition is_digit (c : ascii) : bool :=
  ((48 <=? N_of_ascii c) && (N_of_ascii c <=? 57))%N.

Fixpoint all_digits (s : string) : bool :=
  match s with
  | EmptyString => true
  | String c s' => is_digit c && all_digits s'
  end.

Fixpoint occurs (c : ascii) (s : string) : bool :=
  match s with
  | EmptyString => false
  | String c' s' => Ascii.eqb c c' || occurs c s'
  end.

End Py.

(** ** The script *)

(** Timer settings *)
Definition output_dir : string := "timer_gifs".
Definition width : Z := 1200.
Definition height : Z := 800.
Definition font_size : Z := 300.

Definition nice_time (seconds : Z) : string :=
  let m := seconds / 60 in
  let s := seconds mod 60 in
  Py.format_02d m +:+ ":" +:+ Py.format_02d s.

(** The locals of [create_timer_gif], one definition each. *)
Definition timer_filename (start_minutes start_seconds : Z) : string :=
  output_dir +:+ "/timer_" +:+ Py.format_02d start_minutes +:+ "_"
             +:+ Py.format_02d start_seconds +:+ ".gif".

Definition total_seconds (start_minutes start_seconds : Z) : Z :=
  start_minutes * 60 + start_seconds.

(** The integers the list comprehension iterates over. *)
Definition timer_range (start_minutes start_seconds : Z) : list Z :=
  let total_seconds := total_seconds start_minutes start_seconds in
  Py.range total_seconds (Z.max (total_seconds - 60) (-1)) (-1).

Definition timer_labels (start_minutes start_seconds : Z) : list string :=
  map nice_time (timer_range start_minutes start_seconds).

(** ** The Wand objects the script touches

    [wand.image.Image] serves both as the animation container ([Image()])
    and as a single frame ([Image(width=.., height=.., background=..)]);
    [wand.drawing.Drawing] collects settings and text commands that
    [draw(frame)] then renders onto a frame.  Rasterisation itself is not
    modelled: a frame records which text was drawn on it and with which
    settings. *)

Module Wand.

Record Drawing := mkDrawing {
  font : string;
  font_size : Z;
  text_alignment : string;
  text_antialias : bool;
  fill_color : string;
  commands : list (Z * Z * string)
}.

(** What one [draw.text(x, y, body)] leaves on a frame. *)
Record Text := mkText {
  text_font : string;
  text_size : Z;
  text_align : string;
  text_smooth : bool;
  text_fill : string;
  text_x : Z;
  text_y : Z;
  text_body : string
}.

#[warnings="-register-all"] Inductive Image := mkImage {
  width : Z;
  height : Z;
  background : string;
  drawn : list Text;
  delay : Z;
  dispose : string;
  loop : Z;
  type : string;
  sequence : list Image
}.

(** [Drawing()]: the library defaults; the script overwrites each setting
    it relies on before drawing. *)
Definition Drawing_new : Drawing :=
  mkDrawing "" 12 "undefined" true "black" [].

(** [Image()] *)
Definition Image_empty : Image :=
  mkImage 0 0 "" [] 0 "undefined" 0 "undefined" [].

(** [Image(width=w, height=h, background=bg)] *)
Definition Image_new (w h : Z) (bg : string) : Image :=
  mkImage w h bg [] 0 "undefined" 0 "undefined" [].

Definition set_font (v : string) (d : Drawing) : Drawing :=
  mkDrawing v (font_size d) (text_alignment d) (text_antialias d)
            (fill_color d) (commands d).
Definition set_font_size (v : Z) (d : Drawing) : Drawing :=
  mkDrawing (font d) v (text_alignment d) (text_antialias d)
            (fill_color d) (commands d).
Definition set_text_alignment (v : string) (d : Drawing) : Drawing :=
  mkDrawing (font d) (font_size d) v (text_antialias d)
            (fill_color d) (commands d).
Definition set_text_antialias (v : bool) (d : Drawing) : Drawing :=
  mkDrawing (font d) (font_size d) (text_alignment d) v
            (fill_color d) (commands d).
Definition set_fill_color (v : string) (d : Drawing) : Drawing :=
  mkDrawing (font d) (font_size d) (text_alignment d) (text_antialias d)
            v (commands d).

(** [draw.text(x, y, body)] *)
Definition text (x y : Z) (body : string) (d : Drawing) : Drawing :=
  mkDrawing (font d) (font_size d) (text_alignment d) (text_antialias d)
            (fill_color d) (commands d ++ [(x, y, body)]).

(** [draw(frame)] *)
Definition draw (d : Drawing) (frame : Image) : Image :=
  mkImage (width frame) (height frame) (background frame)
          (drawn frame ++
           map (fun '(x, y, body) =>
                  mkText (font d) (font_size d) (text_alignment d)
                         (text_antialias d) (fill_color d) x y body)
               (commands d))
          (delay frame) (dispose frame) (loop frame) (type frame)
          (sequence frame).

Definition set_delay (v : Z) (i : Image) : Image :=
  mkImage (width i) (height i) (background i) (drawn i)
          v (dispose i) (loop i) (type i) (sequence i).
Definition set_dispose (v : string) (i : Image) : Image :=
  mkImage (width i) (height i) (background i) (drawn i)
          (delay i) v (loop i) (type i) (sequence i).
Definition set_loop (v : Z) (i : Image) : Image :=
  mkImage (width i) (height i) (background i) (drawn i)
          (delay i) (dispose i) v (type i) (sequence i).
Definition set_type (v : string) (i : Image) : Image :=
  mkImage (width i) (height i) (background i) (drawn i)
          (delay i) (dispose i) (loop i) v (sequence i).

(** [gif.sequence.append(frame)] *)
Definition sequence_append (gif frame : Image) : Image :=
  mkImage (width gif) (height gif) (background gif) (drawn gif)
          (delay gif) (dispose gif) (loop gif) (type gif)
          (sequence gif ++ [frame]).

End Wand.

(** ** The world the script acts on

    Directories, saved files and, in [trace], every effect in the order it
    happened.  Failures that come from the environment (a missing typeface,
    an unwritable directory) raise inside the libraries and end the run;
    the script has no handler for them and they are outside this model. *)

Inductive Event :=
| EvMakedirs (path : string)
| EvSave (filename : string)
| EvPrint (line : string).

Record World := mkWorld {
  dirs : gset string;
  files : gmap string Wand.Image;
  trace : list Event
}.

Definition M (A : Type) : Type := World -> A * World.

#[global] Instance M_ret : MRet M := fun A a w => (a, w).

#[global] Instance M_bind : MBind M :=
  fun A B k c w => let '(a, w') := c w in k a w'.

Definition exec {A} (c : M A) (w : World) : World := snd (c w).

(** [for x in xs: body(x)] *)
Fixpoint for_ {A} (xs : list A) (body : A -> M unit) : M unit :=
  match xs with
  | [] => mret tt
  | x :: xs' => body x ;; for_ xs' body
  end.

(** [os.makedirs(path, exist_ok=True)] *)
Definition makedirs (path : string) : M unit :=
  fun w => (tt, mkWorld ({[path]} ∪ dirs w) (files w)
                        (trace w ++ [EvMakedirs path])).

(** [img.save(filename=filename)]: creates the file or overwrites it. *)
Definition save (img : Wand.Image) (filename : string) : M unit :=
  fun w => (tt, mkWorld (dirs w) (<[filename := img]> (files w))
                        (trace w ++ [EvSave filename])).

Definition print (line : string) : M unit :=
  fun w => (tt, mkWorld (dirs w) (files w) (trace w ++ [EvPrint line])).

(** The body of [for label in labels], up to [gif.sequence.append]. Python's
    [int(frame.width / 2)] is a float division truncated towards zero,
    which on these magnitudes is [Z.quot]. *)
Definition timer_frame (label : string) : Wand.Image :=
  let frame := Wand.Image_new width height "transparent" in
  let draw := Wand.Drawing_new in
  let draw := Wand.set_font "Arial" draw in
  let draw := Wand.set_font_size font_size draw in
  let draw := Wand.set_text_alignment "center" draw in
  let draw := Wand.set_text_antialias true draw in
  let draw := Wand.set_fill_color "white" draw in
  let x := Z.quot (Wand.width frame) 2 in
  let y := Z.quot (Wand.height frame) 2 in
  let draw := Wand.text x y label draw in
  let frame := Wand.draw draw frame in
  let frame := Wand.set_delay 100 frame in
  let frame := Wand.set_dispose "background" frame in
  frame.

(** The block under [with Image() as gif:], from [for label in labels] up
    to the assignment of [gif.type], as it acts on the container [gif]. *)
Definition assemble_gif (gif : Wand.Image) (labels : list string)
  : Wand.Image :=
  let gif := fold_left (fun gif label =>
                          Wand.sequence_append gif (timer_frame label))
                       labels gif in
  let gif := Wand.set_dispose "background" gif in
  let gif := Wand.set_delay 100 gif in
  let gif := Wand.set_loop 0 gif in
  let gif := Wand.set_type "optimize" gif in
  gif.

(** The animation as it stands when [gif.save] is called. *)
Definition timer_gif (start_minutes start_seconds : Z) : Wand.Image :=
  let labels := timer_labels start_minutes start_seconds in
  let gif := Wand.Image_empty in
  assemble_gif gif labels.

Definition create_timer_gif (start_minutes start_seconds : Z) : M unit :=
  let filename := timer_filename start_minutes start_seconds in
  save (timer_gif start_minutes start_seconds) filename ;;
  print ("GIF saved as " +:+ filename).

(** The top level of the script, in execution order. *)
Definition main : M unit :=
  makedirs output_dir ;;
  for_ (Py.range 15 0 (-1)) (fun minutes => create_timer_gif minutes 0) ;;
  print "All timer GIFs have been created.".

(** The world after the loop of the script has run over the minute
    values [xs]. *)
Definition loop (xs : list Z) (w : World) : World :=
  fold_left (fun w minutes => exec (create_timer_gif minutes 0) w) xs w.

(** The files a run saved, oldest first. *)
Definition saved (t : list Event) : list string :=
  omap (fun e => match e with EvSave f => Some f | _ => None end) t.

(** The lines a run printed, oldest first. *)
Definition printed (t : list Event) : list string :=
  omap (fun e => match e with EvPrint l => Some l | _ => None end) t.

Definition empty_world : World := mkWorld ∅ ∅ [].

(** ** The label sequence as the specification words it *)

(** Every integer from [hi] down to [lo], both included. *)
Definition descending (hi lo : Z) : list Z :=
  reverse (seqZ lo (hi - lo + 1)).

(** "counting down from total_seconds to max(total_seconds-60, 0)
    inclusive" *)
Definition spec_labels (start_minutes start_seconds : Z) : list string :=
  let total := total_seconds start_minutes start_seconds in
  nice_time <$> descending total (Z.max (total - 60) 0).

(** ** Sanity checks *)

Example nice_time_75 : nice_time 75 = "01:15".
Proof. reflexivity. Qed.

Example nice_time_6000 : nice_time 6000 = "100:00".
Proof. reflexivity. Qed.

Example nice_time_neg : nice_time (-61) = "-2:59".
Proof. reflexivity. Qed.

Example timer_labels_0_3 : timer_labels 0 3 = ["00:03"; "00:02"; "00:01"; "00:00"].
Proof. reflexivity. Qed.

Example descending_5_2 : descending 5 2 = [5; 4; 3; 2].
Proof. reflexivity. Qed.

Example fifteen_minutes_last : last (timer_labels 15 0) = Some "14:01".
Proof. reflexivity. Qed.

Example format_negative : Py.format_0d 3 (-5) = "-05".
Proof. reflexivity. Qed.

Example int_rejects : Py.int "1:0" = None.
Proof. reflexivity. Qed.

Example main_last_lines :
  last (printed (trace (exec main empty_world)))
  = Some "All timer GIFs have been created.".
Proof. vm_compute. reflexivity. Qed.

Example range_step_up : Py.range 1 10 4 = [1; 5; 9].
Proof. reflexivity. Qed.

Example range_step_down : Py.range 10 1 (-4) = [10; 6; 2].
Proof. reflexivity. Qed.

(** ** Facts about strings *)

Section StringFacts.

Lemma append_nil (t : string) : "" +:+ t = t.
Proof. reflexivity. Qed.

Lemma append_cons (c : ascii) (s t : string) :
  String c s +:+ t = String c (s +:+ t).
Proof. reflexivity. Qed.

Lemma length_append (s t : string) :
  String.length (s +:+ t) = (String.length s + String.length t)%nat.
Proof.
  induction s as [|c s IH]; rewrite ?append_nil, ?append_cons; simpl;
    [reflexivity | now f_equal].
Qed.

Lemma all_digits_append (s t : string) :
  Py.all_digits (s +:+ t) = Py.all_digits s && Py.all_digits t.
Proof.
  induction s as [|c s IH]; rewrite ?append_nil, ?append_cons; simpl;
    [reflexivity|].
  now rewrite IH, andb_assoc.
Qed.

Lemma occurs_append (c : ascii) (s t : string) :
  Py.occurs c (s +:+ t) = Py.occurs c s || Py.occurs c t.
Proof.
  induction s as [|c' s IH]; rewrite ?append_nil, ?append_cons; simpl;
    [reflexivity|].
  now rewrite IH, orb_assoc.
Qed.

(** A string of digits holds no other character. *)
Lemma all_digits_occurs (c : ascii) (s : string) :
  Py.is_digit c = false -> Py.all_digits s = true -> Py.occurs c s = false.
Proof.
  intros Hc; induction s as [|c' s IH]; simpl; [reflexivity|].
  intros [Hd Hs]%andb_prop. rewrite (IH Hs), orb_false_r.
  destruct (Ascii.eqb_spec c c') as [->|]; congruence.
Qed.

(** Cutting at the first occurrence of a separator is unambiguous. *)
Lemma append_sep_inj (c : ascii) (s1 s2 t1 t2 : string) :
  Py.occurs c s1 = false -> Py.occurs c s2 = false ->
  s1 +:+ String c t1 = s2 +:+ String c t2 -> s1 = s2 /\ t1 = t2.
Proof.
  revert s2; induction s1 as [|a s1 IH]; intros [|b s2];
    rewrite ?append_nil, ?append_cons; simpl.
  - intros _ _ [= ->]; auto.
  - intros _ [Hb _]%orb_false_elim [= <- _].
    now rewrite Ascii.eqb_refl in Hb.
  - intros [Ha _]%orb_false_elim _ [= -> _].
    now rewrite Ascii.eqb_refl in Ha.
  - intros [_ H1]%orb_false_elim [_ H2]%orb_false_elim [= -> He].
    destruct (IH _ H1 H2 He) as [-> ->]; auto.
Qed.

End StringFacts.

(** ** Facts about [format] and [int] *)

Section FormatFacts.

Lemma length_zeros (k : nat) : String.length (Py.zeros k) = k.
Proof. induction k; simpl; congruence. Qed.

Lemma all_digits_zeros (k : nat) : Py.all_digits (Py.zeros k) = true.
Proof. induction k; simpl; auto. Qed.

Lemma all_digits_uint (d : uint) :
  Py.all_digits (NilEmpty.string_of_uint d) = true.
Proof. induction d; simpl; auto. Qed.

Lemma to_uint_nonnil (n : N) : N.to_uint n <> Nil.
Proof.
  destruct n as [|p]; simpl; [discriminate | apply DecimalPos.Unsigned.to_uint_nonnil].
Qed.

Lemma digits_nonempty (n : Z) : Py.digits n <> "".
Proof.
  unfold Py.digits. pose proof (to_uint_nonnil (Z.abs_N n)) as H.
  destruct (N.to_uint (Z.abs_N n)); simpl; congruence.
Qed.

Lemma all_digits_digits (n : Z) : Py.all_digits (Py.digits n) = true.
Proof.
  unfold Py.digits. destruct (N.to_uint (Z.abs_N n)) eqn:E;
    try reflexivity; rewrite <- E; unfold NilZero.string_of_uint;
    rewrite E; rewrite <- E; apply all_digits_uint.
Qed.

Lemma length_zfill (w : nat) (s : string) :
  String.length (Py.zfill w s) = Nat.max w (String.length s).
Proof. unfold Py.zfill. rewrite length_append, length_zeros. lia. Qed.

Lemma all_digits_zfill (w : nat) (s : string) :
  Py.all_digits s = true -> Py.all_digits (Py.zfill w s) = true.
Proof.
  intros H. unfold Py.zfill. now rewrite all_digits_append, all_digits_zeros, H.
Qed.

Lemma zfill_nonempty (w : nat) (s : string) : s <> "" -> Py.zfill w s <> "".
Proof.
  intros Hs He. apply (f_equal String.length) in He.
  rewrite length_zfill in He. destruct s; [congruence | simpl in He; lia].
Qed.

(** Reading digits back: leading zeros do not change the number. *)
Lemma uint_of_string_zeros (k : nat) (s : string) :
  NilEmpty.uint_of_string (Py.zeros k +:+ s)
  = option_map (Nat.iter k D0) (NilEmpty.uint_of_string s).
Proof.
  induction k as [|k IH]; simpl Py.zeros;
    rewrite ?append_nil, ?append_cons.
  - now destruct (NilEmpty.uint_of_string s).
  - simpl. rewrite IH. now destruct (NilEmpty.uint_of_string s).
Qed.

Lemma of_uint_iter_D0 (k : nat) (d : uint) :
  Z.of_uint (Nat.iter k D0 d) = Z.of_uint d.
Proof. induction k as [|k IH]; simpl; [reflexivity | exact IH]. Qed.

Lemma uint_of_string_digits (n : Z) :
  NilEmpty.uint_of_string (Py.digits n) = Some (N.to_uint (Z.abs_N n)).
Proof.
  unfold Py.digits. pose proof (to_uint_nonnil (Z.abs_N n)) as H.
  destruct (N.to_uint (Z.abs_N n)) eqn:E; [congruence|..];
    apply (NilEmpty.usu (_ _)).
Qed.

Lemma of_uint_to_uint (m : N) : Z.of_uint (N.to_uint m) = Z.of_N m.
Proof.
  unfold Z.of_uint. f_equal. apply DecimalN.Unsigned.of_to.
Qed.

Lemma uint_of_string_nonempty (s : string) :
  s <> "" -> NilZero.uint_of_string s = NilEmpty.uint_of_string s.
Proof. destruct s; [congruence | reflexivity]. Qed.

Lemma int_of_string_digits (s : string) :
  Py.all_digits s = true -> s <> "" ->
  NilZero.int_of_string s = option_map Pos (NilEmpty.uint_of_string s).
Proof.
  destruct s as [|c s]; [congruence|]. simpl Py.all_digits.
  intros [Hc _]%andb_prop _. unfold NilZero.int_of_string.
  destruct (Ascii.eqb_spec c "-") as [->|]; [discriminate | reflexivity].
Qed.

Lemma uint_zfill_digits (w : nat) (n : Z) :
  option_map Z.of_uint (NilEmpty.uint_of_string (Py.zfill w (Py.digits n)))
  = Some (Z.abs n).
Proof.
  unfold Py.zfill. rewrite uint_of_string_zeros, uint_of_string_digits.
  simpl. rewrite of_uint_iter_D0, of_uint_to_uint. f_equal. lia.
Qed.

(** [int] undoes [format]: the padded text reads back as the number. *)
Lemma int_format_0d (w : nat) (n : Z) : Py.int (Py.format_0d w n) = Some n.
Proof.
  pose proof (uint_zfill_digits w n) as Hw.
  pose proof (uint_zfill_digits (w - 1) n) as Hw1.
  unfold Py.int, Py.format_0d. destruct (Z.ltb_spec n 0) as [Hn|Hn].
  - clear Hw. simpl NilZero.int_of_string.
    rewrite uint_of_string_nonempty
      by (apply zfill_nonempty, digits_nonempty).
    destruct (NilEmpty.uint_of_string _) as [d|]; [|discriminate].
    simpl in *. injection Hw1 as Hd. f_equal. lia.
  - clear Hw1. rewrite int_of_string_digits
      by (auto using all_digits_zfill, all_digits_digits,
                     zfill_nonempty, digits_nonempty).
    destruct (NilEmpty.uint_of_string _) as [d|]; [|discriminate].
    simpl in *. injection Hw as Hd. f_equal. lia.
Qed.

Lemma format_02d_inj (m n : Z) : Py.format_02d m = Py.format_02d n -> m = n.
Proof.
  intros H. apply (f_equal Py.int) in H. unfold Py.format_02d in H.
  rewrite !int_format_0d in H. congruence.
Qed.

End FormatFacts.

(** ** Facts about descending ranges *)

Section RangeFacts.

Lemma range_len_down (a b : Z) : Py.range_len a b (-1) = Z.max 0 (a - b).
Proof.
  unfold Py.range_len. simpl. destruct (Z.ltb_spec b a); [|lia].
  rewrite Z.div_1_r. lia.
Qed.

Lemma range_down (a b : Z) :
  Py.range a b (-1)
  = map (fun i => a - Z.of_nat i) (seq 0 (Z.to_nat (a - b))).
Proof.
  unfold Py.range. rewrite range_len_down.
  replace (Z.to_nat (Z.max 0 (a - b))) with (Z.to_nat (a - b)) by lia.
  apply map_ext. intros i. lia.
Qed.

Lemma length_range_down (a b : Z) :
  length (Py.range a b (-1)) = Z.to_nat (a - b).
Proof. now rewrite range_down, length_map, length_seq. Qed.

Lemma lookup_range_down (a b : Z) (i : nat) :
  (i < Z.to_nat (a - b))%nat ->
  Py.range a b (-1) !! i = Some (a - Z.of_nat i).
Proof.
  intros Hi. rewrite range_down.
  change (map ?f ?l) with (f <$> l).
  now rewrite list_lookup_fmap, lookup_seq_lt.
Qed.

Lemma elem_of_range_down (a b v : Z) :
  v ∈ Py.range a b (-1) <-> b < v <= a.
Proof.
  rewrite range_down. change (map ?f ?l) with (f <$> l).
  rewrite list_elem_of_fmap. split.
  - intros (i & -> & Hi%elem_of_seq). lia.
  - intros Hv. exists (Z.to_nat (a - v)). split; [lia|].
    apply elem_of_seq. lia.
Qed.

Lemma last_range_down (a b : Z) :
  b < a -> last (Py.range a b (-1)) = Some (b + 1).
Proof.
  intros H. rewrite last_lookup, length_range_down.
  rewrite lookup_range_down by lia. f_equal. lia.
Qed.

(** [range(a, b, -1)] lists every integer from [a] down to [b + 1]. *)
Lemma range_down_descending (a b : Z) :
  Py.range a b (-1) = descending a (b + 1).
Proof.
  apply list_eq. intros i. unfold descending.
  destruct (decide (i < Z.to_nat (a - b))%nat) as [Hi|Hi].
  - rewrite lookup_range_down by exact Hi.
    rewrite reverse_lookup by (rewrite length_seqZ; lia).
    rewrite length_seqZ, lookup_seqZ_lt by lia. f_equal. lia.
  - rewrite !lookup_ge_None_2; [reflexivity|..].
    + rewrite length_reverse, length_seqZ. lia.
    + rewrite length_range_down. lia.
Qed.

End RangeFacts.

(** ** Facts about [nice_time] *)

Section NiceTimeFacts.

Lemma format_02d_nonneg (n : Z) :
  0 <= n -> Py.format_02d n = Py.zfill 2 (Py.digits n).
Proof.
  intros Hn. unfold Py.format_02d, Py.format_0d.
  now destruct (Z.ltb_spec n 0); [lia|].
Qed.

Lemma all_digits_format_02d (n : Z) :
  0 <= n -> Py.all_digits (Py.format_02d n) = true.
Proof.
  intros Hn. rewrite format_02d_nonneg by exact Hn.
  apply all_digits_zfill, all_digits_digits.
Qed.

Lemma length_format_02d (n : Z) :
  0 <= n -> (2 <= String.length (Py.format_02d n))%nat.
Proof.
  intros Hn. rewrite format_02d_nonneg, length_zfill by exact Hn. lia.
Qed.

(** Below one hundred the field is exactly two characters wide. *)
Lemma length_format_02d_small (n : Z) :
  0 <= n < 100 -> String.length (Py.format_02d n) = 2%nat.
Proof.
  intros Hn.
  assert (forallb (fun v => Nat.eqb (String.length (Py.format_02d v)) 2)
                  (seqZ 0 100) = true) as Hall by (vm_compute; reflexivity).
  rewrite forallb_forall in Hall.
  apply Nat.eqb_eq, Hall, list_elem_of_In, elem_of_seqZ. lia.
Qed.

Lemma occurs_format_0d (c : ascii) (w : nat) (n : Z) :
  Py.is_digit c = false -> c <> "-"%char ->
  Py.occurs c (Py.format_0d w n) = false.
Proof.
  intros Hc Hm. unfold Py.format_0d. destruct (n <? 0); simpl.
  - apply Ascii.eqb_neq in Hm. rewrite Hm. simpl.
    apply all_digits_occurs, all_digits_zfill, all_digits_digits. exact Hc.
  - apply all_digits_occurs, all_digits_zfill, all_digits_digits. exact Hc.
Qed.

Lemma nice_time_inj (a b : Z) : nice_time a = nice_time b -> a = b.
Proof.
  unfold nice_time. cbv zeta. intros H.
  apply (append_sep_inj ":") in H as [Hm Hs];
    try (apply occurs_format_0d; [reflexivity | discriminate]).
  apply format_02d_inj in Hm. apply format_02d_inj in Hs.
  rewrite (Z.div_mod a 60), (Z.div_mod b 60) by lia. congruence.
Qed.

End NiceTimeFacts.

(** ** The label sequence of one animation *)

Section LabelFacts.

Variables start_minutes start_seconds : Z.

Let total := total_seconds start_minutes start_seconds.

Lemma length_timer_range :
  length (timer_range start_minutes start_seconds)
  = Z.to_nat (Z.min 60 (total + 1)).
Proof.
  unfold timer_range. rewrite length_range_down. fold total. lia.
Qed.

Lemma length_timer_labels :
  length (timer_labels start_minutes start_seconds)
  = Z.to_nat (Z.min 60 (total + 1)).
Proof. unfold timer_labels. now rewrite length_map, length_timer_range. Qed.

Lemma elem_of_timer_range (v : Z) :
  v ∈ timer_range start_minutes start_seconds
  <-> 0 <= v /\ total - 60 < v <= total.
Proof. unfold timer_range. rewrite elem_of_range_down. fold total. lia. Qed.

Lemma timer_range_descending :
  timer_range start_minutes start_seconds
  = descending total (Z.max (total - 59) 0).
Proof.
  unfold timer_range. rewrite range_down_descending. fold total.
  f_equal. lia.
Qed.

Lemma last_timer_range :
  0 <= total ->
  last (timer_range start_minutes start_seconds)
  = Some (Z.max (total - 59) 0).
Proof.
  intros H. unfold timer_range. rewrite last_range_down; fold total;
    [f_equal|]; lia.
Qed.

End LabelFacts.

(** ** The animation and the run *)

Section RunFacts.

Lemma sequence_fold (labels : list string) (gif : Wand.Image) :
  Wand.sequence
    (fold_left (fun gif label => Wand.sequence_append gif (timer_frame label))
               labels gif)
  = (Wand.sequence gif ++ map timer_frame labels)%list.
Proof.
  revert gif; induction labels as [|l labels IH]; intros gif; simpl.
  - now rewrite app_nil_r.
  - rewrite IH. simpl. now rewrite <- app_assoc.
Qed.

Lemma sequence_assemble_gif (gif : Wand.Image) (labels : list string) :
  Wand.sequence (assemble_gif gif labels)
  = (Wand.sequence gif ++ map timer_frame labels)%list.
Proof. unfold assemble_gif. simpl. apply sequence_fold. Qed.

Lemma sequence_timer_gif (m s : Z) :
  Wand.sequence (timer_gif m s) = map timer_frame (timer_labels m s).
Proof. unfold timer_gif. cbv zeta. now rewrite sequence_assemble_gif. Qed.

Lemma exec_bind {A B} (c : M A) (k : A -> M B) (w : World) :
  exec (c ≫= k) w = exec (k (c w).1) (c w).2.
Proof. unfold exec, mbind, M_bind. now destruct (c w). Qed.

Lemma exec_for_ {A} (xs : list A) (body : A -> M unit) (w : World) :
  exec (for_ xs body) w = fold_left (fun w x => exec (body x) w) xs w.
Proof.
  revert w; induction xs as [|x xs IH]; intros w; simpl; [reflexivity|].
  rewrite exec_bind. apply IH.
Qed.

(** One call: the animation is saved, then the notice is printed. *)
Lemma exec_create_timer_gif (m s : Z) (w : World) :
  exec (create_timer_gif m s) w
  = mkWorld (dirs w) (<[timer_filename m s := timer_gif m s]> (files w))
            (trace w ++ [EvSave (timer_filename m s);
                         EvPrint ("GIF saved as " +:+ timer_filename m s)])%list.
Proof.
  unfold create_timer_gif, exec, mbind, M_bind, save, print. simpl.
  now rewrite <- app_assoc.
Qed.

Lemma trace_loop (xs : list Z) (w : World) :
  trace (loop xs w)
  = (trace w ++
     flat_map (fun m => [EvSave (timer_filename m 0);
                         EvPrint ("GIF saved as " +:+ timer_filename m 0)])
              xs)%list.
Proof.
  unfold loop. revert w; induction xs as [|x xs IH]; intros w; simpl.
  - now rewrite app_nil_r.
  - rewrite IH, exec_create_timer_gif. simpl. now rewrite <- app_assoc.
Qed.

Lemma dom_loop (xs : list Z) (w : World) :
  dom (files (loop xs w))
  = dom (files w) ∪ list_to_set ((fun m => timer_filename m 0) <$> xs).
Proof.
  unfold loop. revert w; induction xs as [|x xs IH]; intros w; simpl.
  - now rewrite (right_id_L ∅ (∪)).
  - rewrite IH, exec_create_timer_gif. simpl. rewrite dom_insert_L.
    now rewrite (comm_L (∪) {[_]} (dom _)), (assoc_L (∪)).
Qed.

Lemma lookup_loop_other (xs : list Z) (w : World) (f : string) :
  f ∉ (fun m => timer_filename m 0) <$> xs ->
  files (loop xs w) !! f = files w !! f.
Proof.
  unfold loop. revert w; induction xs as [|x xs IH]; intros w; simpl;
    [reflexivity|].
  intros [Hx Hxs]%not_elem_of_cons. rewrite IH by exact Hxs.
  rewrite exec_create_timer_gif. simpl. now apply lookup_insert_ne.
Qed.

(** With distinct names, each file still holds its own animation at the
    end of the loop. *)
Lemma lookup_loop (xs : list Z) (w : World) :
  NoDup ((fun m => timer_filename m 0) <$> xs) ->
  Forall (fun m => files (loop xs w) !! timer_filename m 0
                   = Some (timer_gif m 0)) xs.
Proof.
  revert w; induction xs as [|x xs IH]; intros w; [constructor|].
  rewrite fmap_cons. intros [Hx Hxs]%NoDup_cons. constructor.
  - unfold loop. simpl. fold (loop xs (exec (create_timer_gif x 0) w)).
    rewrite lookup_loop_other by exact Hx.
    rewrite exec_create_timer_gif. simpl. apply lookup_insert_eq.
  - unfold loop. simpl. fold (loop xs (exec (create_timer_gif x 0) w)).
    apply IH, Hxs.
Qed.

Lemma exec_seq {A B} (c : M A) (k : M B) (w : World) :
  exec (c ;; k) w = exec k (exec c w).
Proof. unfold exec, mbind, M_bind. now destruct (c w). Qed.

Lemma files_makedirs (path : string) (w : World) :
  files (exec (makedirs path) w) = files w.
Proof. reflexivity. Qed.

Lemma files_print (line : string) (w : World) :
  files (exec (print line) w) = files w.
Proof. reflexivity. Qed.

Lemma trace_makedirs (path : string) (w : World) :
  trace (exec (makedirs path) w) = (trace w ++ [EvMakedirs path])%list.
Proof. reflexivity. Qed.

Lemma trace_print (line : string) (w : World) :
  trace (exec (print line) w) = (trace w ++ [EvPrint line])%list.
Proof. reflexivity. Qed.

Lemma saved_loop (xs : list Z) (w : World) :
  saved (trace (loop xs w))
  = (saved (trace w) ++ ((fun m => timer_filename m 0) <$> xs))%list.
Proof.
  rewrite trace_loop. unfold saved. rewrite omap_app. f_equal.
  induction xs as [|x xs IH]; [reflexivity|].
  change (flat_map ?f (x :: xs)) with (f x ++ flat_map f xs)%list.
  rewrite omap_app, IH. reflexivity.
Qed.

Lemma exec_main (w : World) :
  exec main w
  = exec (print "All timer GIFs have been created.")
         (loop (Py.range 15 0 (-1)) (exec (makedirs output_dir) w)).
Proof.
  unfold main.
  rewrite (exec_seq (makedirs output_dir)).
  rewrite (exec_seq (for_ _ _)).
  unfold loop. now rewrite <- exec_for_.
Qed.

Lemma timer_filename_inj (m1 s1 m2 s2 : Z) :
  timer_filename m1 s1 = timer_filename m2 s2 -> m1 = m2 /\ s1 = s2.
Proof.
  unfold timer_filename. intros H.
  do 2 apply String.app_inj in H.
  apply (append_sep_inj "_") in H as [Hm H];
    try (apply occurs_format_0d; [reflexivity | discriminate]).
  apply (append_sep_inj ".") in H as [Hs _];
    try (apply occurs_format_0d; [reflexivity | discriminate]).
  split; now apply format_02d_inj.
Qed.

End RunFacts.

(** ** The claims *)

(** C1, as the specification states it, fails: a start of 01:00 yields 60
    labels, not 61, and the last one is "00:01", not "00:00". *)
Lemma one_minute_labels_not_61 :
  length (timer_labels 1 0) = 60%nat /\
  last (timer_labels 1 0) = Some "00:01" /\
  ~ (length (timer_labels 1 0) = 61%nat /\
     head (timer_labels 1 0) = Some "01:00" /\
     last (timer_labels 1 0) = Some "00:00").
Proof.
  split; [reflexivity|]. split; [reflexivity|].
  intros (Hlen & _ & _). vm_compute in Hlen. discriminate.
Qed.

(** C1, amended: for [start_minutes = 1] and [start_seconds = 0] the label
    sequence has exactly 60 entries, the first "01:00" and the last
    "00:01", entry [i] being the time [60 - i]: one second less per
    entry. *)
Theorem one_minute_labels :
  timer_labels 1 0 = (fun i => nice_time (60 - Z.of_nat i)) <$> seq 0 60 /\
  length (timer_labels 1 0) = 60%nat /\
  head (timer_labels 1 0) = Some "01:00" /\
  last (timer_labels 1 0) = Some "00:01".
Proof. repeat split; vm_compute; reflexivity. Qed.

(** C2, as the specification states it, fails: counting down to
    [max (total - 60) 0] inclusive gives 61 labels for a start of 01:00,
    the script produces 60. *)
Lemma timer_labels_not_spec_labels :
  0 <= 1 /\ 0 <= 0 /\
  length (spec_labels 1 0) = 61%nat /\
  length (timer_labels 1 0) = 60%nat /\
  timer_labels 1 0 <> spec_labels 1 0.
Proof.
  split; [lia|]. split; [lia|]. split; [reflexivity|]. split; [reflexivity|].
  intros H. apply (f_equal length) in H. vm_compute in H. discriminate.
Qed.

(** C2, amended: for non-negative [start_minutes] and [start_seconds] the
    label sequence is the formatted time of each integer from
    [total_seconds] down to [max (total_seconds - 59) 0] inclusive, in
    descending order. *)
Theorem timer_labels_descending (start_minutes start_seconds : Z) :
  0 <= start_minutes -> 0 <= start_seconds ->
  timer_labels start_minutes start_seconds
  = nice_time <$>
      descending (total_seconds start_minutes start_seconds)
                 (Z.max (total_seconds start_minutes start_seconds - 59) 0).
Proof.
  intros _ _. unfold timer_labels.
  now rewrite timer_range_descending.
Qed.

Lemma timer_labels_descending_witness :
  0 <= 2 /\ 0 <= 30 /\
  timer_labels 2 30
  = nice_time <$> descending (total_seconds 2 30)
                             (Z.max (total_seconds 2 30 - 59) 0).
Proof.
  split; [lia|]. split; [lia|].
  apply (timer_labels_descending 2 30); lia.
Defined.

(** C3: for every non-negative [s], [nice_time s] is a minutes field, a
    colon and a seconds field; both fields are decimal digits only, the
    minutes field is at least two characters wide and reads as [s / 60],
    the seconds field is exactly two wide and reads as [s mod 60], which
    lies in [0, 60). *)
Theorem nice_time_fields (s : Z) :
  0 <= s ->
  exists mm ss : string,
    nice_time s = mm +:+ ":" +:+ ss /\
    Py.all_digits mm = true /\
    (2 <= String.length mm)%nat /\
    Py.int mm = Some (s / 60) /\
    Py.all_digits ss = true /\
    String.length ss = 2%nat /\
    Py.int ss = Some (s mod 60) /\
    0 <= s mod 60 < 60.
Proof.
  intros Hs. exists (Py.format_02d (s / 60)), (Py.format_02d (s mod 60)).
  pose proof (Z.mod_pos_bound s 60 ltac:(lia)) as Hmod.
  assert (0 <= s / 60) as Hdiv by (apply Z.div_pos; lia).
  split; [reflexivity|].
  split; [now apply all_digits_format_02d|].
  split; [now apply length_format_02d|].
  split; [apply int_format_0d|].
  split; [apply all_digits_format_02d; lia|].
  split; [apply length_format_02d_small; lia|].
  split; [apply int_format_0d | exact Hmod].
Qed.

Lemma nice_time_fields_witness :
  0 <= 75 /\
  exists mm ss : string,
    nice_time 75 = mm +:+ ":" +:+ ss /\
    Py.all_digits mm = true /\
    (2 <= String.length mm)%nat /\
    Py.int mm = Some (75 / 60) /\
    Py.all_digits ss = true /\
    String.length ss = 2%nat /\
    Py.int ss = Some (75 mod 60) /\
    0 <= 75 mod 60 < 60.
Proof. split; [lia | apply (nice_time_fields 75); lia]. Defined.

(** C4: for non-negative [start_minutes] and [start_seconds], every value
    the comprehension hands to [nice_time] is non-negative, and no label
    of the sequence carries a minus sign. *)
Theorem timer_range_nonneg (start_minutes start_seconds : Z) :
  0 <= start_minutes -> 0 <= start_seconds ->
  Forall (fun v => 0 <= v) (timer_range start_minutes start_seconds) /\
  Forall (fun label => Py.occurs "-" label = false)
         (timer_labels start_minutes start_seconds).
Proof.
  intros _ _.
  assert (Forall (fun v => 0 <= v) (timer_range start_minutes start_seconds))
    as Hrange.
  { apply List.Forall_forall. intros v Hv.
    rewrite <- list_elem_of_In, elem_of_timer_range in Hv. lia. }
  split; [exact Hrange|].
  unfold timer_labels. apply Forall_map.
  eapply Forall_impl; [exact Hrange|]. intros v Hv. simpl in Hv |- *.
  unfold nice_time. cbv zeta. rewrite !occurs_append.
  pose proof (Z.mod_pos_bound v 60 ltac:(lia)) as Hmod.
  assert (0 <= v / 60) as Hdiv by (apply Z.div_pos; lia).
  rewrite (all_digits_occurs "-" (Py.format_02d (v / 60))),
          (all_digits_occurs "-" (Py.format_02d (v mod 60)));
    try reflexivity; apply all_digits_format_02d; lia.
Qed.

Lemma timer_range_nonneg_witness :
  0 <= 0 /\ 0 <= 5 /\
  Forall (fun v => 0 <= v) (timer_range 0 5) /\
  Forall (fun label => Py.occurs "-" label = false) (timer_labels 0 5).
Proof.
  split; [lia|]. split; [lia|]. apply (timer_range_nonneg 0 5); lia.
Defined.

(** C5: for non-negative [start_minutes] and [start_seconds], one
    animation has at most 61 labels, and exactly one frame per label. *)
Theorem timer_labels_at_most_61 (start_minutes start_seconds : Z) :
  0 <= start_minutes -> 0 <= start_seconds ->
  (length (timer_labels start_minutes start_seconds) <= 61)%nat /\
  length (Wand.sequence (timer_gif start_minutes start_seconds))
  = length (timer_labels start_minutes start_seconds).
Proof.
  intros _ _. split.
  - rewrite length_timer_labels. lia.
  - now rewrite sequence_timer_gif, length_map.
Qed.

Lemma timer_labels_at_most_61_witness :
  0 <= 15 /\ 0 <= 0 /\
  (length (timer_labels 15 0) <= 61)%nat /\
  length (Wand.sequence (timer_gif 15 0)) = length (timer_labels 15 0).
Proof.
  split; [lia|]. split; [lia|]. apply (timer_labels_at_most_61 15 0); lia.
Defined.

(** C7: the animation [create_timer_gif] saves under its file name has one
    frame per label, every frame's delay set to 100 and disposal set to
    'background', and its loop count set to 0. These values are assigned by
    the code, not inherited: a frame starts from delay 0 and disposal
    'undefined' before the two assignments, the frames are appended after
    whatever the container already held, and the loop count is 0 whatever
    it was in the container before. *)
Theorem timer_gif_metadata (start_minutes start_seconds : Z) (w : World) :
  files (exec (create_timer_gif start_minutes start_seconds) w)
    !! timer_filename start_minutes start_seconds
  = Some (timer_gif start_minutes start_seconds) /\
  Forall (fun frame => Wand.delay frame = 100 /\
                       Wand.dispose frame = "background")
         (Wand.sequence (timer_gif start_minutes start_seconds)) /\
  Wand.loop (timer_gif start_minutes start_seconds) = 0 /\
  length (Wand.sequence (timer_gif start_minutes start_seconds))
  = length (timer_labels start_minutes start_seconds) /\
  timer_gif start_minutes start_seconds
  = assemble_gif Wand.Image_empty
                 (timer_labels start_minutes start_seconds) /\
  (forall (gif : Wand.Image) (labels : list string),
     Wand.loop (assemble_gif gif labels) = 0 /\
     exists frames : list Wand.Image,
       Wand.sequence (assemble_gif gif labels)
       = (Wand.sequence gif ++ frames)%list /\
       length frames = length labels /\
       Forall (fun frame => Wand.delay frame = 100 /\
                            Wand.dispose frame = "background") frames) /\
  Wand.delay (Wand.Image_new width height "transparent") = 0 /\
  Wand.dispose (Wand.Image_new width height "transparent") = "undefined".
Proof.
  assert (forall labels : list string,
             Forall (fun frame => Wand.delay frame = 100 /\
                                  Wand.dispose frame = "background")
                    (map timer_frame labels)) as Hframes.
  { intros labels. apply Forall_map, Forall_forall.
    intros label _. split; reflexivity. }
  split; [|split; [|split; [|split; [|split; [|split; [|split]]]]]].
  - rewrite exec_create_timer_gif. simpl. apply lookup_insert_eq.
  - rewrite sequence_timer_gif. apply Hframes.
  - reflexivity.
  - now rewrite sequence_timer_gif, length_map.
  - reflexivity.
  - intros gif labels. split; [reflexivity|].
    exists (map timer_frame labels).
    split; [apply sequence_assemble_gif|].
    split; [apply length_map | apply Hframes].
  - reflexivity.
  - reflexivity.
Qed.

(** C8: from one minute upwards the label sequence has exactly 60 entries,
    its last entry is [nice_time (total_seconds - 59)], and "00:00" is not
    among the labels: it can only appear when [total_seconds < 60]. *)
Theorem timer_labels_from_one_minute (start_minutes start_seconds : Z) :
  60 <= total_seconds start_minutes start_seconds ->
  length (timer_labels start_minutes start_seconds) = 60%nat /\
  last (timer_labels start_minutes start_seconds)
  = Some (nice_time (total_seconds start_minutes start_seconds - 59)) /\
  "00:00" ∉ timer_labels start_minutes start_seconds.
Proof.
  intros Ht. split; [|split].
  - rewrite length_timer_labels. lia.
  - unfold timer_labels. change (map ?f ?l) with (f <$> l).
    rewrite fmap_last, last_timer_range by lia. simpl. do 2 f_equal. lia.
  - unfold timer_labels. change (map ?f ?l) with (f <$> l).
    intros (v & Hv & Hin)%list_elem_of_fmap.
    change "00:00" with (nice_time 0) in Hv.
    apply nice_time_inj in Hv. subst v.
    apply elem_of_timer_range in Hin. lia.
Qed.

Lemma timer_labels_from_one_minute_witness :
  60 <= total_seconds 15 0 /\
  length (timer_labels 15 0) = 60%nat /\
  last (timer_labels 15 0) = Some (nice_time (total_seconds 15 0 - 59)) /\
  "00:00" ∉ timer_labels 15 0.
Proof.
  split; [vm_compute; discriminate|].
  apply (timer_labels_from_one_minute 15 0). vm_compute. discriminate.
Defined.

(** C9: [nice_time] is defined on every integer. Its seconds field is two
    digits that read as [s mod 60], which lies in [0, 60); its minutes field
    reads as [s / 60], the floor of [s / 60]; and [nice_time (-1)] is
    "-1:59". *)
Theorem nice_time_total :
  (forall s : Z,
    exists mm ss : string,
      nice_time s = mm +:+ ":" +:+ ss /\
      Py.occurs ":" mm = false /\
      Py.int mm = Some (s / 60) /\
      60 * (s / 60) <= s < 60 * (s / 60) + 60 /\
      Py.all_digits ss = true /\
      String.length ss = 2%nat /\
      Py.int ss = Some (s mod 60) /\
      0 <= s mod 60 < 60) /\
  nice_time (-1) = "-1:59".
Proof.
  split; [|reflexivity]. intros s.
  exists (Py.format_02d (s / 60)), (Py.format_02d (s mod 60)).
  pose proof (Z.mod_pos_bound s 60 ltac:(lia)) as Hmod.
  pose proof (Z.div_mod s 60 ltac:(lia)) as Hdm.
  split; [reflexivity|].
  split; [apply occurs_format_0d; [reflexivity | discriminate]|].
  split; [apply int_format_0d|].
  split; [lia|].
  split; [apply all_digits_format_02d; lia|].
  split; [apply length_format_02d_small; lia|].
  split; [apply int_format_0d | exact Hmod].
Qed.

(** C6: a run of the script iterates over the minutes 15, 14, ..., 1, calls
    [create_timer_gif minutes 0] once for each in that order, and thereby
    saves exactly the fifteen files timer_15_00.gif ... timer_01_00.gif
    under the output directory, in that order. *)
Theorem main_saves_fifteen_files (w : World) :
  let minutes := [15; 14; 13; 12; 11; 10; 9; 8; 7; 6; 5; 4; 3; 2; 1] in
  let names :=
    (fun mm => "timer_gifs/timer_" +:+ mm +:+ "_00.gif") <$>
    ["15"; "14"; "13"; "12"; "11"; "10"; "09"; "08"; "07"; "06";
     "05"; "04"; "03"; "02"; "01"] in
  Py.range 15 0 (-1) = minutes /\
  length minutes = 15%nat /\
  exec main w
  = exec (print "All timer GIFs have been created.")
         (loop minutes (exec (makedirs output_dir) w)) /\
  (fun m => timer_filename m 0) <$> minutes = names /\
  saved (trace (exec main w)) = (saved (trace w) ++ names)%list /\
  dom (files (exec main w)) = dom (files w) ∪ list_to_set names.
Proof.
  intros minutes names.
  assert (Py.range 15 0 (-1) = minutes) as Hrange by reflexivity.
  assert ((fun m => timer_filename m 0) <$> minutes = names) as Hnames
    by reflexivity.
  split; [exact Hrange|]. split; [reflexivity|].
  split; [rewrite exec_main, Hrange; reflexivity|].
  split; [exact Hnames|].
  split.
  - rewrite exec_main, trace_print, Hrange.
    unfold saved at 1. rewrite omap_app. fold (saved (trace (loop minutes
      (exec (makedirs output_dir) w)))).
    rewrite saved_loop, trace_makedirs, Hnames.
    unfold saved at 1. rewrite omap_app. simpl.
    now rewrite !app_nil_r.
  - rewrite exec_main, files_print, dom_loop, files_makedirs, Hrange, Hnames.
    reflexivity.
Qed.

(** C10: the fifteen file names of one run are pairwise distinct, so no
    file saved earlier in the run is overwritten later: when the run ends,
    each of them still holds the animation of its own start time. *)
Theorem main_files_distinct (w : World) :
  NoDup ((fun m => timer_filename m 0) <$> Py.range 15 0 (-1)) /\
  Forall (fun m => files (exec main w) !! timer_filename m 0
                   = Some (timer_gif m 0))
         (Py.range 15 0 (-1)).
Proof.
  assert (NoDup ((fun m => timer_filename m 0) <$> Py.range 15 0 (-1)))
    as Hnodup.
  { apply NoDup_fmap_2_strong.
    - intros a b _ _ H. now apply timer_filename_inj in H as [-> _].
    - rewrite range_down. apply NoDup_fmap_2; [|apply NoDup_seq].
      intros i j. lia. }
  split; [exact Hnodup|].
  rewrite exec_main.
  eapply Forall_impl;
    [apply (lookup_loop _ (exec (makedirs output_dir) w) Hnodup)|].
  intros m Hm. cbv beta in Hm |- *. rewrite files_print. exact Hm.
Qed.

(** ** Further properties of the label arithmetic *)

Section MoreRangeFacts.

Lemma NoDup_range_down (a b : Z) : NoDup (Py.range a b (-1)).
Proof.
  rewrite range_down. change (map ?f ?l) with (f <$> l).
  apply NoDup_fmap_2; [|apply NoDup_seq]. intros i j. lia.
Qed.

(** Two descending ranges that meet end to end make one. *)
Lemma range_down_app (a b c : Z) :
  c <= b <= a ->
  (Py.range a b (-1) ++ Py.range b c (-1))%list = Py.range a c (-1).
Proof.
  intros H. rewrite !range_down.
  replace (Z.to_nat (a - c)) with (Z.to_nat (a - b) + Z.to_nat (b - c))%nat
    by lia.
  rewrite seq_app, map_app. f_equal.
  rewrite Nat.add_0_l, <- (Nat.add_0_r (Z.to_nat (a - b))) at 1.
  change (map ?f ?l) with (f <$> l).
  rewrite <- fmap_add_seq, <- list_fmap_compose.
  apply list_fmap_ext. intros _ i _. simpl. lia.
Qed.

Lemma range_down_cons (a b : Z) :
  b < a -> Py.range a b (-1) = a :: Py.range (a - 1) b (-1).
Proof.
  intros H. rewrite <- (range_down_app a (a - 1) b) by lia.
  now rewrite (range_down a (a - 1)), Z.sub_sub_distr, Z.sub_diag; simpl;
    rewrite Z.sub_0_r.
Qed.

End MoreRangeFacts.

(** X1: [nice_time] never prints two different second counts alike. *)
Theorem nice_time_distinct (a b : Z) :
  a <> b -> nice_time a <> nice_time b.
Proof. intros Hne Heq. apply Hne, nice_time_inj, Heq. Qed.

Lemma nice_time_distinct_witness :
  59 <> 60 /\ nice_time 59 <> nice_time 60.
Proof. split; [lia | apply (nice_time_distinct 59 60); lia]. Defined.

(** X2: two different (minutes, seconds) starts never share a file name,
    whatever the integers are. *)
Theorem timer_filename_distinct (m1 s1 m2 s2 : Z) :
  (m1, s1) <> (m2, s2) -> timer_filename m1 s1 <> timer_filename m2 s2.
Proof.
  intros Hne Heq. apply timer_filename_inj in Heq as [-> ->]. now apply Hne.
Qed.

Lemma timer_filename_distinct_witness :
  (1, 11) <> (11, 1) /\ timer_filename 1 11 <> timer_filename 11 1.
Proof.
  split; [congruence | apply (timer_filename_distinct 1 11 11 1); congruence].
Defined.

(** X3: a start below one minute counts all the way down: the sequence has
    [total_seconds + 1] labels, begins with the start time and ends with
    "00:00". *)
Theorem timer_labels_below_one_minute (start_minutes start_seconds : Z) :
  0 <= total_seconds start_minutes start_seconds < 60 ->
  length (timer_labels start_minutes start_seconds)
  = Z.to_nat (total_seconds start_minutes start_seconds + 1) /\
  head (timer_labels start_minutes start_seconds)
  = Some (nice_time (total_seconds start_minutes start_seconds)) /\
  last (timer_labels start_minutes start_seconds) = Some "00:00".
Proof.
  intros Ht. split; [|split].
  - rewrite length_timer_labels. f_equal. lia.
  - unfold timer_labels, timer_range. cbv zeta.
    rewrite range_down_cons by lia. reflexivity.
  - unfold timer_labels. change (map ?f ?l) with (f <$> l).
    rewrite fmap_last, last_timer_range by lia.
    replace (Z.max _ 0) with 0 by lia. reflexivity.
Qed.

Lemma timer_labels_below_one_minute_witness :
  0 <= total_seconds 0 3 < 60 /\
  length (timer_labels 0 3) = Z.to_nat (total_seconds 0 3 + 1) /\
  head (timer_labels 0 3) = Some (nice_time (total_seconds 0 3)) /\
  last (timer_labels 0 3) = Some "00:00".
Proof.
  split; [unfold total_seconds; lia|].
  apply (timer_labels_below_one_minute 0 3). unfold total_seconds. lia.
Defined.

(** X4: a start whose total is negative yields no label and an animation
    without frames. *)
Theorem timer_labels_negative_start (start_minutes start_seconds : Z) :
  total_seconds start_minutes start_seconds < 0 ->
  timer_labels start_minutes start_seconds = [] /\
  Wand.sequence (timer_gif start_minutes start_seconds) = [].
Proof.
  intros Ht.
  assert (timer_labels start_minutes start_seconds = []) as Hnil.
  { apply length_zero_iff_nil. rewrite length_timer_labels. lia. }
  split; [exact Hnil|]. now rewrite sequence_timer_gif, Hnil.
Qed.

Lemma timer_labels_negative_start_witness :
  total_seconds 0 (-5) < 0 /\
  timer_labels 0 (-5) = [] /\ Wand.sequence (timer_gif 0 (-5)) = [].
Proof.
  split; [reflexivity|].
  apply (timer_labels_negative_start 0 (-5)). reflexivity.
Defined.

(** X5: label number [i] of a sequence shows the start time minus [i]
    seconds. *)
Theorem timer_labels_lookup (start_minutes start_seconds : Z) (i : nat) :
  (i < length (timer_labels start_minutes start_seconds))%nat ->
  timer_labels start_minutes start_seconds !! i
  = Some (nice_time (total_seconds start_minutes start_seconds - Z.of_nat i)).
Proof.
  rewrite length_timer_labels. intros Hi.
  unfold timer_labels, timer_range. cbv zeta.
  change (map ?f ?l) with (f <$> l).
  rewrite list_lookup_fmap, lookup_range_down by lia. reflexivity.
Qed.

Lemma timer_labels_lookup_witness :
  (7 < length (timer_labels 2 30))%nat /\
  timer_labels 2 30 !! 7%nat
  = Some (nice_time (total_seconds 2 30 - Z.of_nat 7)).
Proof.
  split; [vm_compute; lia|].
  apply (timer_labels_lookup 2 30 7). vm_compute. lia.
Defined.

(** X6: no label occurs twice within one animation. *)
Theorem timer_labels_NoDup (start_minutes start_seconds : Z) :
  NoDup (timer_labels start_minutes start_seconds).
Proof.
  unfold timer_labels, timer_range. cbv zeta.
  change (map ?f ?l) with (f <$> l).
  apply NoDup_fmap_2_strong; [|apply NoDup_range_down].
  intros a b _ _. apply nice_time_inj.
Qed.

Section WidthFacts.





End WidthFacts.

(** X7: the whole-minute timers tile the countdown. For any [n], the label
    sequences of the starts n:00, (n-1):00, ..., 1:00, one after the other,
    are the labels of every second from [60 * n] down to 1, each once. *)
Theorem minute_timers_tile (n : Z) :
  flat_map (fun m => timer_labels m 0) (Py.range n 0 (-1))
  = nice_time <$> Py.range (60 * n) 0 (-1).
Proof.
  destruct (Z.le_gt_cases n 0) as [Hn|Hn].
  { rewrite !range_down.
    replace (Z.to_nat (n - 0)) with 0%nat by lia.
    replace (Z.to_nat (60 * n - 0)) with 0%nat by lia. reflexivity. }
  rewrite <- (Z2Nat.id n) by lia. clear Hn.
  induction (Z.to_nat n) as [|k IH]; [reflexivity|].
  rewrite (range_down_cons (Z.of_nat (S k))) by lia.
  replace (Z.of_nat (S k) - 1) with (Z.of_nat k) by lia.
  change (flat_map ?f (?x :: ?l)) with (f x ++ flat_map f l)%list.
  rewrite IH. unfold timer_labels, timer_range, total_seconds. cbv zeta.
  change (map ?f ?l) with (f <$> l). rewrite <- fmap_app. f_equal.
  replace (Z.max (Z.of_nat (S k) * 60 + 0 - 60) (-1)) with (60 * Z.of_nat k)
    by lia.
  replace (Z.of_nat (S k) * 60 + 0) with (60 * Z.of_nat (S k)) by lia.
  apply range_down_app. lia.
Qed.

(** X8: the frames of an animation are its labels in order, each drawn once
    at the centre (600, 400) of a transparent 1200 x 800 canvas, in white
    centred anti-aliased Arial of size 300, with delay 100 and disposal
    'background'. *)
Theorem timer_gif_frames (start_minutes start_seconds : Z) :
  Wand.sequence (timer_gif start_minutes start_seconds)
  = map (fun label =>
           Wand.mkImage 1200 800 "transparent"
             [Wand.mkText "Arial" 300 "center" true "white" 600 400 label]
             100 "background" 0 "undefined" [])
        (timer_labels start_minutes start_seconds).
Proof. rewrite sequence_timer_gif. apply map_ext. reflexivity. Qed.



(** X10: with [0 <= start_seconds < 60] and a non-negative [start_minutes]
    the first label and the file name carry the same two fields: the label
    is MM:SS and the file is timer_MM_SS.gif in the output directory. *)
Theorem first_label_matches_filename (start_minutes start_seconds : Z) :
  0 <= start_minutes -> 0 <= start_seconds < 60 ->
  exists mm ss : string,
    Py.int mm = Some start_minutes /\
    Py.int ss = Some start_seconds /\
    head (timer_labels start_minutes start_seconds)
    = Some (mm +:+ ":" +:+ ss) /\
    timer_filename start_minutes start_seconds
    = output_dir +:+ "/timer_" +:+ mm +:+ "_" +:+ ss +:+ ".gif".
Proof.
  intros Hm Hs.
  exists (Py.format_02d start_minutes), (Py.format_02d start_seconds).
  split; [apply int_format_0d|]. split; [apply int_format_0d|].
  split; [|reflexivity].
  unfold timer_labels, timer_range, total_seconds. cbv zeta.
  rewrite range_down_cons by lia.
  change (head (map ?f (?x :: ?l))) with (Some (f x)).
  unfold nice_time. cbv zeta.
  rewrite Z.div_add_l, Z.div_small, Z.add_0_r by lia.
  rewrite Z.add_comm, Z.mod_add, Z.mod_small by lia. reflexivity.
Qed.

Lemma first_label_matches_filename_witness :
  0 <= 2 /\ 0 <= 30 < 60 /\
  exists mm ss : string,
    Py.int mm = Some 2 /\
    Py.int ss = Some 30 /\
    head (timer_labels 2 30) = Some (mm +:+ ":" +:+ ss) /\
    timer_filename 2 30
    = output_dir +:+ "/timer_" +:+ mm +:+ "_" +:+ ss +:+ ".gif".
Proof.
  split; [lia|]. split; [lia|].
  apply (first_label_matches_filename 2 30); lia.
Defined.

(** ** Further properties of the run *)

Section MoreRunFacts.

Lemma dirs_makedirs (path : string) (w : World) :
  dirs (exec (makedirs path) w) = {[path]} ∪ dirs w.
Proof. reflexivity. Qed.

Lemma dirs_print (line : string) (w : World) :
  dirs (exec (print line) w) = dirs w.
Proof. reflexivity. Qed.

Lemma dirs_loop (xs : list Z) (w : World) : dirs (loop xs w) = dirs w.
Proof.
  unfold loop. revert w; induction xs as [|x xs IH]; intros w; simpl;
    [reflexivity|].
  rewrite IH, exec_create_timer_gif. reflexivity.
Qed.

Lemma NoDup_main_names :
  NoDup ((fun m => timer_filename m 0) <$> Py.range 15 0 (-1)).
Proof.
  apply NoDup_fmap_2_strong.
  - intros a b _ _ H. now apply timer_filename_inj in H as [-> _].
  - rewrite range_down. apply NoDup_fmap_2; [|apply NoDup_seq].
    intros i j. lia.
Qed.

Lemma lookup_main (w : World) (m : Z) :
  m ∈ Py.range 15 0 (-1) ->
  files (exec main w) !! timer_filename m 0 = Some (timer_gif m 0).
Proof.
  intros Hm. rewrite exec_main, files_print.
  pose proof (lookup_loop _ (exec (makedirs output_dir) w) NoDup_main_names)
    as Hall.
  rewrite Forall_forall in Hall. apply Hall, Hm.
Qed.

Lemma lookup_main_other (w : World) (f : string) :
  f ∉ (fun m => timer_filename m 0) <$> Py.range 15 0 (-1) ->
  files (exec main w) !! f = files w !! f.
Proof.
  intros Hf. rewrite exec_main, files_print, lookup_loop_other by exact Hf.
  now rewrite files_makedirs.
Qed.

Lemma dirs_main (w : World) : dirs (exec main w) = {[output_dir]} ∪ dirs w.
Proof. now rewrite exec_main, dirs_print, dirs_loop, dirs_makedirs. Qed.

End MoreRunFacts.

(** X11: one call of [create_timer_gif] changes no file but its own and
    creates no directory. *)
Theorem create_timer_gif_other_files
  (start_minutes start_seconds : Z) (w : World) (f : string) :
  f <> timer_filename start_minutes start_seconds ->
  files (exec (create_timer_gif start_minutes start_seconds) w) !! f
  = files w !! f /\
  dirs (exec (create_timer_gif start_minutes start_seconds) w) = dirs w.
Proof.
  intros Hf. rewrite exec_create_timer_gif. split; [|reflexivity].
  cbn [files]. now apply lookup_insert_ne.
Qed.

Lemma create_timer_gif_other_files_witness :
  "notes.txt" <> timer_filename 1 0 /\
  files (exec (create_timer_gif 1 0) empty_world) !! "notes.txt"
  = files empty_world !! "notes.txt" /\
  dirs (exec (create_timer_gif 1 0) empty_world) = dirs empty_world.
Proof.
  split; [vm_compute; discriminate|].
  apply (create_timer_gif_other_files 1 0 empty_world "notes.txt").
  vm_compute. discriminate.
Defined.

(** X12: a run leaves every file other than its fifteen untouched. *)
Theorem main_other_files (w : World) (f : string) :
  f ∉ (fun m => timer_filename m 0) <$> Py.range 15 0 (-1) ->
  files (exec main w) !! f = files w !! f.
Proof. apply lookup_main_other. Qed.

Lemma main_other_files_witness :
  ("timer_gifs/timer_16_00.gif"
     ∉ ((fun m => timer_filename m 0) <$> Py.range 15 0 (-1))) /\
  (files (exec main empty_world) !! "timer_gifs/timer_16_00.gif"
   = files empty_world !! "timer_gifs/timer_16_00.gif").
Proof.
  assert ("timer_gifs/timer_16_00.gif"
            ∉ ((fun m => timer_filename m 0) <$> Py.range 15 0 (-1))) as Hf.
  { apply (bool_decide_unpack _). vm_compute. exact I. }
  split; [exact Hf|].
  apply (main_other_files empty_world "timer_gifs/timer_16_00.gif"), Hf.
Defined.

(** X13: running the script a second time changes neither the files nor
    the directories the first run left. *)
Theorem main_twice (w : World) :
  files (exec main (exec main w)) = files (exec main w) /\
  dirs (exec main (exec main w)) = dirs (exec main w).
Proof.
  split.
  - apply map_eq. intros f.
    destruct (decide (f ∈ (fun m => timer_filename m 0)
                            <$> Py.range 15 0 (-1))) as [Hin|Hout].
    + apply list_elem_of_fmap in Hin as (m & -> & Hm).
      now rewrite !lookup_main.
    + now rewrite (lookup_main_other (exec main w)).
  - rewrite !dirs_main. now rewrite (assoc_L (∪)), (idemp_L (∪)).
Qed.

(** X14: the effects of a run, in order: the output directory is created
    first; then, for each minute value from 15 down to 1, the file is saved
    and its notice printed right after; the completion line comes last.
    The only directory a run adds is the output directory. *)
Theorem main_trace (w : World) :
  trace (exec main w)
  = (trace w ++
     EvMakedirs "timer_gifs" ::
     flat_map (fun m => [EvSave (timer_filename m 0);
                         EvPrint ("GIF saved as " +:+ timer_filename m 0)])
              (Py.range 15 0 (-1)) ++
     [EvPrint "All timer GIFs have been created."])%list /\
  dirs (exec main w) = {[ "timer_gifs" ]} ∪ dirs w.
Proof.
  split; [|apply dirs_main].
  rewrite exec_main, trace_print, trace_loop, trace_makedirs.
  now rewrite <- !app_assoc.
Qed.
